(** * bidict/_util.py: helpers for iterating mapping-like arguments

    A shallow embedding of the three functions of [bidict/_util.py]
    ([_iteritems_mapping_or_iterable], [_iteritems_args_kw], [inverted])
    together with the fragment of the Python object model they rely on:
    truthiness (of the arguments and of the iterators made from them),
    [isinstance(_, Mapping)], [getattr] with a default, [callable],
    [iter], [itertools.chain], generator expressions with a target list,
    and raised exceptions. *)

From Stdlib Require Import List String Ascii ZArith Lia Bool.
From Stdlib Require Import Decimal DecimalString DecimalPos DecimalZ.
Import ListNotations.

Local Open Scope string_scope.
Local Open Scope list_scope.

(** ** Python values *)

(** The keys, values and elements that flow through the module.  The code
    never inspects them, except that the generator expression of
    [inverted] binds each element to the target list [(key, val)]. *)
#[warnings="-register-all"]
Inductive pyval : Type :=
| VNone
| VBool (b : bool)
| VInt (z : Z)
| VStr (s : string)
| VTuple (elts : list pyval)
| VList (elts : list pyval).

(** The 2-tuple [(a, b)]. *)
Definition pair_ (a b : pyval) : pyval := VTuple [a; b].

Definition tuple_of_item (kv : pyval * pyval) : pyval := pair_ (fst kv) (snd kv).

Definition swap_item (kv : pyval * pyval) : pyval * pyval := (snd kv, fst kv).

(** ** Exceptions *)

(** [TypeError msg] is the exception raised at line 40 of the source.
    [UnpackError elt] stands for the [TypeError] or [ValueError] that the
    interpreter raises when [elt] cannot be bound to a target list of two
    names; its message belongs to the interpreter, not to this module. *)
Inductive exn : Type :=
| TypeError (msg : string)
| UnpackError (elt : pyval).

(** Outcome of a call: a returned value or a raised exception. *)
Inductive result (A : Type) : Type :=
| Return (a : A)
| Raised (e : exn).
Arguments Return {A} a.
Arguments Raised {A} e.

Definition bind {A B : Type} (r : result A) (k : A -> result B) : result B :=
  match r with
  | Return a => k a
  | Raised e => Raised e
  end.

Notation "x <- r ;; k" := (bind r (fun x => k))
  (at level 100, r at next level, right associativity).

(** ** Iterators *)

(** What a consumer observes when it pulls from a (finite) iterator, up
    to the first pull that does not give an element: the elements in
    order, then [StopIteration] or an exception that escapes from
    [__next__].  Nothing of the tail is computed before the head has been
    pulled, which is how the lazy iterators of the source behave.  What
    pulls made after an escaped exception would give is not recorded. *)
Inductive pyiter : Type :=
| Stop
| Yield (elt : pyval) (rest : pyiter)
| Raise (e : exn).

(** [iter(l)] for a list (or any finite sequence) [l]. *)
Fixpoint iter_list (l : list pyval) : pyiter :=
  match l with
  | [] => Stop
  | x :: l' => Yield x (iter_list l')
  end.

(** [list(it)]: pull until exhaustion; an exception escapes from the call. *)
Fixpoint list_ (it : pyiter) : result (list pyval) :=
  match it with
  | Stop => Return []
  | Yield x rest => l <- list_ rest ;; Return (x :: l)
  | Raise e => Raised e
  end.

(** The elements pulled before the iterator stops or raises. *)
Fixpoint yielded (it : pyiter) : list pyval :=
  match it with
  | Yield x rest => x :: yielded rest
  | _ => []
  end.

(** [itertools.chain(a, b)]: [b] is pulled only once [a] is exhausted; an
    exception that escapes from a pull of [a] escapes from that pull of
    the chain, where the record of the pulls ends. *)
Fixpoint chain (a b : pyiter) : pyiter :=
  match a with
  | Stop => b
  | Yield x rest => Yield x (chain rest b)
  | Raise e => Raise e
  end.

(** [repeat(None, 0)]: stops at the first pull. *)
Definition repeat (elt : pyval) (times : nat) : pyiter :=
  iter_list (List.repeat elt times).

(** Iterating a value, as the unpacking of a target list does: tuples and
    lists give their elements, a string its one-character strings, and
    the other values are not iterable. *)
Definition elements (v : pyval) : option (list pyval) :=
  match v with
  | VTuple l | VList l => Some l
  | VStr s => Some (map (fun c => VStr (String c EmptyString)) (list_ascii_of_string s))
  | VNone | VBool _ | VInt _ => None
  end.

(** Binding [elt] to the target list [(key, val)]. *)
Definition unpack2 (elt : pyval) : result (pyval * pyval) :=
  match elements elt with
  | Some [k; v] => Return (k, v)
  | _ => Raised (UnpackError elt)
  end.

(** ** Objects passed as arguments *)

(** The value bound to an attribute: a plain value, or a function with
    what a call on a list of arguments does. *)
Inductive attrval : Type :=
| Plain (v : pyval)
| Function (call : list pyval -> result pyiter).

(** A [MapOrIterPair]: a [Mapping] with its items view in iteration
    order, or an iterable of elements. *)
Inductive pyshape : Type :=
| Mapping (items : list (pyval * pyval))
| Iterable (it : pyiter).

(** An argument of the module's functions, as far as the code looks at
    it: what it is, its truth value, the truth value of the iterator
    object that [iter] makes from it (from its items view for a
    [Mapping]), and its [__inverted__] attribute when it has one. *)
Record pyobj : Type := PyObj {
  ob_shape : pyshape;
  ob_bool : bool;
  ob_iter_bool : bool;
  ob_inverted : option attrval
}.

(** [isinstance(arg, Mapping)] *)
Definition isinstance_Mapping (arg : pyobj) : bool :=
  match ob_shape arg with
  | Mapping _ => true
  | Iterable _ => false
  end.

(** [arg.items()], the items view of a [Mapping]. *)
Definition items (arg : pyobj) : list (pyval * pyval) :=
  match ob_shape arg with
  | Mapping kvs => kvs
  | Iterable _ => []
  end.

(** Iterating an items view: each item comes out as the tuple
    [(key, value)]. *)
Definition iter_items (kvs : list (pyval * pyval)) : pyiter :=
  iter_list (map tuple_of_item kvs).

(** [iter(arg)]: a [Mapping] iterates over its keys, an iterable over its
    elements. *)
Definition iter_ (arg : pyobj) : pyiter :=
  match ob_shape arg with
  | Mapping kvs => iter_list (map fst kvs)
  | Iterable it => it
  end.

(** [getattr(arg, '__inverted__', default)] *)
Definition getattr_inverted (arg : pyobj) (default : attrval) : attrval :=
  match ob_inverted arg with
  | Some a => a
  | None => default
  end.

(** [callable(inv)] *)
Definition callable (inv : attrval) : bool :=
  match inv with
  | Function _ => true
  | Plain _ => false
  end.

(** Calling [inv] on [args]; calling a plain value raises. *)
Definition call_ (inv : attrval) (args : list pyval) : result pyiter :=
  match inv with
  | Function call => call args
  | Plain _ => Raised (TypeError "object is not callable")
  end.

(** Built-in objects: a [dict] and a [list] are false when empty and have
    no [__inverted__]; a generator is always true.  Their iterators have
    neither [__bool__] nor [__len__] and so are true. *)
Definition dict_ (kvs : list (pyval * pyval)) : pyobj :=
  {| ob_shape := Mapping kvs;
     ob_bool := negb (Nat.eqb (List.length kvs) 0);
     ob_iter_bool := true;
     ob_inverted := None |}.

Definition pylist (elts : list pyval) : pyobj :=
  {| ob_shape := Iterable (iter_list elts);
     ob_bool := negb (Nat.eqb (List.length elts) 0);
     ob_iter_bool := true;
     ob_inverted := None |}.

Definition generator (it : pyiter) : pyobj :=
  {| ob_shape := Iterable it; ob_bool := true; ob_iter_bool := true;
     ob_inverted := None |}.

(** The keyword arguments [**kw]: a [dict] from names to values, in the
    order the arguments were given. *)
Definition kwargs : Type := list (string * pyval).

Definition kw_items (kw : kwargs) : list (pyval * pyval) :=
  map (fun nv => (VStr (fst nv), snd nv)) kw.

Definition kw_bool (kw : kwargs) : bool :=
  negb (Nat.eqb (List.length kw) 0).

(** The f-string field [{args_len}]: the decimal digits of an [int];
    [parse_int] reads them back. *)
Definition format_int (z : Z) : string :=
  NilZero.string_of_int (Z.to_int z).

Definition parse_int (digits : string) : option Z :=
  option_map Z.of_int (NilZero.int_of_string digits).

(** ** The module *)

(** [_NULL_IT = repeat(None, 0)] *)
Definition _NULL_IT : pyiter := repeat VNone 0.

(** [return iter(arg.items() if isinstance(arg, Mapping) else arg)] *)
Definition _iteritems_mapping_or_iterable (arg : pyobj) : pyiter :=
  if isinstance_Mapping arg then iter_items (items arg) else iter_ arg.

(** An iterator object held in the local [itemchain]: what pulling from
    it gives, and its truth value. *)
Record iterobj : Type := IterObj {
  io_pulls : pyiter;
  io_bool : bool
}.

(** The iterator objects of the standard library that the function
    makes, [chain(a, b)], [iter(kw.items())] and [repeat(None, 0)], have
    neither [__bool__] nor [__len__]: they are true. *)
Definition chain_obj (a b : iterobj) : iterobj :=
  {| io_pulls := chain (io_pulls a) (io_pulls b); io_bool := true |}.

Definition iter_kw_items (kw : kwargs) : iterobj :=
  {| io_pulls := iter_items (kw_items kw); io_bool := true |}.

Definition _NULL_IT_obj : iterobj :=
  {| io_pulls := _NULL_IT; io_bool := true |}.

(** The object that [_iteritems_mapping_or_iterable(arg)] returns: its
    truth value is that of the iterator made from [arg]. *)
Definition iteritems_obj (arg : pyobj) : iterobj :=
  {| io_pulls := _iteritems_mapping_or_iterable arg; io_bool := ob_iter_bool arg |}.

(** The local [itemchain] is [None], which is false, or an iterator
    object, which has its own truth value: the tests [if itemchain] of
    line 48 and [itemchain or _NULL_IT] of line 49 are the [match]es with
    [io_bool] below.  The function returns an iterator object; the
    result is what pulling from it gives. *)
Definition _iteritems_args_kw (args : list pyobj) (kw : kwargs) : result pyiter :=
  let args_len := Z.of_nat (List.length args) in
  if (1 <? args_len)%Z then
    Raised (TypeError ("Expected at most 1 positional argument, got "
                       ++ format_int args_len))
  else
    let itemchain : option iterobj := None in
    let itemchain :=
      match args with
      | arg :: _ =>
          if ob_bool arg then Some (iteritems_obj arg)
          else itemchain
      | [] => itemchain
      end in
    let itemchain :=
      if kw_bool kw then
        let iterkw := iter_kw_items kw in
        match itemchain with
        | Some ic => if io_bool ic then Some (chain_obj ic iterkw) else Some iterkw
        | None => Some iterkw
        end
      else itemchain in
    Return (io_pulls (match itemchain with
                      | Some ic => if io_bool ic then ic else _NULL_IT_obj
                      | None => _NULL_IT_obj
                      end)).

(** The generator expression [((val, key) for (key, val) in it)]: an
    element that does not unpack ends the generator with the exception. *)
Fixpoint genexpr_swap (it : pyiter) : pyiter :=
  match it with
  | Stop => Stop
  | Yield elt rest =>
      match unpack2 elt with
      | Return (key, val) => Yield (pair_ val key) (genexpr_swap rest)
      | Raised e => Raise e
      end
  | Raise e => Raise e
  end.

Definition inverted (arg : pyobj) : result pyiter :=
  let inv := getattr_inverted arg (Plain VNone) in
  if callable inv then call_ inv []
  else Return (genexpr_swap (_iteritems_mapping_or_iterable arg)).

(** [list(r)] where [r] is the outcome of a call that returns an
    iterable: the elements the caller gets by consuming it. *)
Definition consume (r : result pyiter) : result (list pyval) :=
  it <- r ;; list_ it.

(** ** Sample values *)

(** [{'a': 1, 'b': 2}] *)
Definition d_ab : pyobj := dict_ [(VStr "a", VInt 1); (VStr "b", VInt 2)].

(** An object with the items [{'a': 1}] whose [__inverted__] returns
    [[(9, 'z')]]. *)
Definition hooked : pyobj :=
  {| ob_shape := Mapping [(VStr "a", VInt 1)];
     ob_bool := true;
     ob_iter_bool := true;
     ob_inverted :=
       Some (Function (fun _ => Return (iter_list [pair_ (VInt 9) (VStr "z")]))) |}.

(** The same items with [__inverted__ = 5]. *)
Definition plain_attr : pyobj :=
  {| ob_shape := Mapping [(VStr "a", VInt 1)];
     ob_bool := true;
     ob_iter_bool := true;
     ob_inverted := Some (Plain (VInt 5)) |}.

(** An iterable that is true and yields [('a', 1)], whose iterator is an
    object with [__len__() == 0] and so is false. *)
Definition false_iterator : pyobj :=
  {| ob_shape := Iterable (iter_list [pair_ (VStr "a") (VInt 1)]);
     ob_bool := true;
     ob_iter_bool := false;
     ob_inverted := None |}.

(** ** Observations on iterators and elements *)

(** The element is a tuple of length two. *)
Definition is_pair (v : pyval) : bool :=
  match v with
  | VTuple [_; _] => true
  | _ => false
  end.

(** The element can be bound to the target list [(key, val)]. *)
Definition unpacks (elt : pyval) : bool :=
  match unpack2 elt with
  | Return _ => true
  | Raised _ => false
  end.

(** What the generator of [inverted] makes of an element that unpacks
    into [(key, val)]: the tuple [(val, key)]. *)
Definition swap_elt (elt : pyval) : pyval :=
  match unpack2 elt with
  | Return (key, val) => pair_ val key
  | Raised _ => elt
  end.

(** The tuple [(key, val)] of an element that unpacks into [key] and
    [val]. *)
Definition as_tuple (elt : pyval) : pyval :=
  match unpack2 elt with
  | Return (key, val) => pair_ key val
  | Raised _ => elt
  end.

(** What the positional arguments contribute to the result of
    [_iteritems_args_kw]: the normalized first argument when it is there
    and both it and its iterator are true, nothing otherwise. *)
Definition positional_segment (args : list pyobj) : pyiter :=
  match args with
  | arg :: _ =>
      if ob_bool arg && ob_iter_bool arg then _iteritems_mapping_or_iterable arg
      else Stop
  | [] => Stop
  end.

(** [list(inverted(arg))] *)
Definition list_inverted (arg : pyobj) : result (list pyval) :=
  consume (inverted arg).

(** ** Iterator facts *)

Lemma list_iter_list (l : list pyval) : list_ (iter_list l) = Return l.
Proof.
  induction l as [|x l IH]; simpl.
  - reflexivity.
  - rewrite IH. reflexivity.
Qed.

Lemma yielded_iter_list (l : list pyval) : yielded (iter_list l) = l.
Proof.
  induction l as [|x l IH]; simpl; [reflexivity | now rewrite IH].
Qed.

(** An iterator that lists to [l] is the list iterator of [l]. *)
Lemma list_inv (it : pyiter) (l : list pyval) :
  list_ it = Return l -> it = iter_list l.
Proof.
  revert l. induction it as [|x rest IH|e]; simpl; intros l H.
  - injection H as <-. reflexivity.
  - destruct (list_ rest) as [l'|e] eqn:E; simpl in H; [|discriminate].
    injection H as <-. simpl. now rewrite (IH l' eq_refl).
  - discriminate.
Qed.

Lemma chain_iter_list (l1 l2 : list pyval) :
  chain (iter_list l1) (iter_list l2) = iter_list (l1 ++ l2).
Proof.
  induction l1 as [|x l1 IH]; simpl; [reflexivity | now rewrite IH].
Qed.

Lemma chain_Stop_r (it : pyiter) : chain it Stop = it.
Proof.
  induction it as [|x rest IH|e]; simpl; [reflexivity | now rewrite IH | reflexivity].
Qed.


Lemma unpack2_pair (a b : pyval) : unpack2 (pair_ a b) = Return (a, b).
Proof. reflexivity. Qed.

Lemma genexpr_swap_items (kvs : list (pyval * pyval)) :
  genexpr_swap (iter_items kvs) = iter_items (map swap_item kvs).
Proof.
  unfold iter_items.
  induction kvs as [|[k v] kvs IH]; simpl; [reflexivity | now rewrite IH].
Qed.

Lemma swap_item_involutive (kvs : list (pyval * pyval)) :
  map swap_item (map swap_item kvs) = kvs.
Proof.
  induction kvs as [|[k v] kvs IH]; simpl; [reflexivity | now rewrite IH].
Qed.

(** ** Decimal rendering of the argument count *)

Lemma to_int_proper (z : Z) :
  Z.to_int z <> Decimal.Pos Nil /\ Z.to_int z <> Decimal.Neg Nil.
Proof.
  destruct z as [|p|p]; simpl; split; try discriminate;
    intros [= H]; now apply (DecimalPos.Unsigned.to_uint_nonnil p).
Qed.

Lemma parse_format_int (z : Z) : parse_int (format_int z) = Some z.
Proof.
  unfold parse_int, format_int.
  destruct (to_int_proper z) as [Hp Hn].
  rewrite (NilZero.isi _ Hp Hn). simpl.
  now rewrite DecimalZ.of_to.
Qed.

(** ** The positional-argument check *)

Lemma args_kw_arity_error (args : list pyobj) (kw : kwargs) :
  (1 < List.length args)%nat ->
  _iteritems_args_kw args kw =
    Raised (TypeError ("Expected at most 1 positional argument, got "
                       ++ format_int (Z.of_nat (List.length args)))).
Proof.
  intros H. unfold _iteritems_args_kw.
  destruct (Z.ltb_spec 1 (Z.of_nat (List.length args))) as [_|Hge]; [reflexivity | lia].
Qed.

Lemma args_kw_returns (args : list pyobj) (kw : kwargs) :
  (List.length args <= 1)%nat ->
  exists it, _iteritems_args_kw args kw = Return it.
Proof.
  intros H. unfold _iteritems_args_kw.
  destruct (Z.ltb_spec 1 (Z.of_nat (List.length args))) as [Hlt|_]; [lia|].
  eexists. reflexivity.
Qed.

(** ** Claims about [_iteritems_args_kw]: the arity check *)

(** C1: the call raises exactly when more than one positional argument is
    given; the exception escapes from the call itself (no iterator is
    returned), it is the [TypeError] of the source, and its message ends
    with the decimal digits of the number of positional arguments, which
    read back as that number. *)
Theorem args_kw_raises_iff_arity (args : list pyobj) (kw : kwargs) :
  ((exists e, _iteritems_args_kw args kw = Raised e) <-> (1 < List.length args)%nat)
  /\ ((1 < List.length args)%nat ->
      forall it, _iteritems_args_kw args kw <> Return it)
  /\ (forall e, _iteritems_args_kw args kw = Raised e ->
      exists digits,
        e = TypeError ("Expected at most 1 positional argument, got " ++ digits)
        /\ parse_int digits = Some (Z.of_nat (List.length args))).
Proof.
  destruct (Nat.lt_ge_cases 1 (List.length args)) as [Hlt|Hge].
  - pose proof (args_kw_arity_error args kw Hlt) as E.
    split; [|split].
    + split; [intros _; exact Hlt | intros _; eexists; exact E].
    + intros _ it H. rewrite E in H. discriminate.
    + intros e H. rewrite E in H. injection H as <-.
      eexists. split; [reflexivity | apply parse_format_int].
  - destruct (args_kw_returns args kw Hge) as [it E].
    split; [|split].
    + split; [intros [e H]; rewrite E in H; discriminate | lia].
    + lia.
    + intros e H. rewrite E in H. discriminate.
Qed.

Lemma args_kw_raises_iff_arity_witness :
  (1 < List.length [d_ab; pylist []])%nat
  /\ _iteritems_args_kw [d_ab; pylist []] [("b", VInt 2)]
     = Raised (TypeError "Expected at most 1 positional argument, got 2")
  /\ forall it, _iteritems_args_kw [d_ab; pylist []] [("b", VInt 2)] <> Return it.
Proof.
  split; [simpl; lia|]. split; [reflexivity|].
  apply (proj1 (proj2 (args_kw_raises_iff_arity [d_ab; pylist []] [("b", VInt 2)]))).
  simpl; lia.
Defined.

(** ** Claims about [_iteritems_mapping_or_iterable] *)

(** C2: for a [Mapping] the returned iterator yields exactly the tuples
    of the items view, in its order, and then stops; for any other
    argument it is the iterator of the argument itself, so the same
    elements come out in the same order, unchanged. *)
Theorem iteritems_mapping_or_iterable_spec (arg : pyobj) :
  (isinstance_Mapping arg = true ->
     list_ (_iteritems_mapping_or_iterable arg) = Return (map tuple_of_item (items arg))
     /\ yielded (_iteritems_mapping_or_iterable arg) = map tuple_of_item (items arg))
  /\ (isinstance_Mapping arg = false ->
     _iteritems_mapping_or_iterable arg = iter_ arg).
Proof.
  unfold _iteritems_mapping_or_iterable.
  split; intros ->.
  - unfold iter_items. split; [apply list_iter_list | apply yielded_iter_list].
  - reflexivity.
Qed.

Lemma iteritems_mapping_or_iterable_spec_witness :
  isinstance_Mapping d_ab = true
  /\ list_ (_iteritems_mapping_or_iterable d_ab)
     = Return [pair_ (VStr "a") (VInt 1); pair_ (VStr "b") (VInt 2)]
  /\ isinstance_Mapping (pylist [VInt 7; pair_ (VStr "k") VNone]) = false
  /\ _iteritems_mapping_or_iterable (pylist [VInt 7; pair_ (VStr "k") VNone])
     = iter_list [VInt 7; pair_ (VStr "k") VNone].
Proof.
  split; [reflexivity|]. split.
  - exact (proj1 (proj1 (iteritems_mapping_or_iterable_spec d_ab) eq_refl)).
  - split; [reflexivity|].
    exact (proj2 (iteritems_mapping_or_iterable_spec
                    (pylist [VInt 7; pair_ (VStr "k") VNone])) eq_refl).
Defined.

(** ** Claims about [inverted] *)

(** Without a callable [__inverted__] the result is the swapping
    generator over the normalized argument. *)
Lemma inverted_default (arg : pyobj) :
  callable (getattr_inverted arg (Plain VNone)) = false ->
  inverted arg = Return (genexpr_swap (_iteritems_mapping_or_iterable arg)).
Proof.
  intros H. unfold inverted. now rewrite H.
Qed.

Lemma consume_inverted_default (arg : pyobj) (kvs : list (pyval * pyval)) :
  callable (getattr_inverted arg (Plain VNone)) = false ->
  list_ (_iteritems_mapping_or_iterable arg) = Return (map tuple_of_item kvs) ->
  consume (inverted arg) = Return (map tuple_of_item (map swap_item kvs)).
Proof.
  intros Hc Hl. rewrite (inverted_default arg Hc). simpl.
  apply list_inv in Hl. rewrite Hl.
  fold (iter_items kvs). rewrite genexpr_swap_items.
  apply list_iter_list.
Qed.

(** C3: when the argument has no callable [__inverted__] and its
    normalization yields the pairs [kvs], consuming [inverted arg] gives
    exactly those pairs, each swapped, in the same order. *)
Theorem inverted_swaps_pairs (arg : pyobj) (kvs : list (pyval * pyval)) :
  callable (getattr_inverted arg (Plain VNone)) = false ->
  list_ (_iteritems_mapping_or_iterable arg) = Return (map tuple_of_item kvs) ->
  consume (inverted arg) = Return (map tuple_of_item (map swap_item kvs)).
Proof.
  exact (consume_inverted_default arg kvs).
Qed.

(** [inverted({'a': 1, 'b': 2})] yields [(1, 'a'), (2, 'b')]. *)
Lemma inverted_swaps_pairs_witness :
  callable (getattr_inverted d_ab (Plain VNone)) = false
  /\ list_ (_iteritems_mapping_or_iterable d_ab)
     = Return (map tuple_of_item [(VStr "a", VInt 1); (VStr "b", VInt 2)])
  /\ consume (inverted d_ab)
     = Return [pair_ (VInt 1) (VStr "a"); pair_ (VInt 2) (VStr "b")].
Proof.
  split; [reflexivity|]. split; [reflexivity|].
  exact (inverted_swaps_pairs d_ab [(VStr "a", VInt 1); (VStr "b", VInt 2)]
           eq_refl eq_refl).
Defined.

(** C4: when [__inverted__] is callable, [inverted] calls it on the empty
    argument list and returns the outcome of that call as it is: the
    items of the argument are not looked at, and if the hook returns an
    iterable of [elts] then consuming the result gives exactly [elts]. *)
Theorem inverted_calls_hook (arg : pyobj) (call : list pyval -> result pyiter) :
  ob_inverted arg = Some (Function call) ->
  inverted arg = call []
  /\ (forall elts, call [] = Return (iter_list elts) ->
        consume (inverted arg) = Return elts).
Proof.
  intros H.
  assert (E : inverted arg = call []).
  { unfold inverted, getattr_inverted. rewrite H. reflexivity. }
  split; [exact E|].
  intros elts Hc. rewrite E, Hc. simpl. apply list_iter_list.
Qed.

(** The hook of [hooked] returns [[(9, 'z')]] although its items are
    [{'a': 1}]. *)
Lemma inverted_calls_hook_witness :
  consume (inverted hooked) = Return [pair_ (VInt 9) (VStr "z")]
  /\ items hooked = [(VStr "a", VInt 1)].
Proof.
  split; [|reflexivity].
  exact (proj2 (inverted_calls_hook hooked
                  (fun _ => Return (iter_list [pair_ (VInt 9) (VStr "z")])) eq_refl)
               [pair_ (VInt 9) (VStr "z")] eq_refl).
Defined.

(** C9: an [__inverted__] attribute that is present but not callable is
    neither called nor an error: the result is the swapping generator,
    the same as for the object without the attribute. *)
Theorem inverted_ignores_plain_attribute (arg : pyobj) (v : pyval) :
  ob_inverted arg = Some (Plain v) ->
  inverted arg = Return (genexpr_swap (_iteritems_mapping_or_iterable arg))
  /\ inverted arg
     = inverted {| ob_shape := ob_shape arg; ob_bool := ob_bool arg;
                   ob_iter_bool := ob_iter_bool arg; ob_inverted := None |}.
Proof.
  intros H. unfold inverted, getattr_inverted. rewrite H. simpl.
  split; reflexivity.
Qed.

Lemma inverted_ignores_plain_attribute_witness :
  ob_inverted plain_attr = Some (Plain (VInt 5))
  /\ consume (inverted plain_attr) = Return [pair_ (VInt 1) (VStr "a")].
Proof.
  split; [reflexivity|].
  rewrite (proj1 (inverted_ignores_plain_attribute plain_attr (VInt 5) eq_refl)).
  reflexivity.
Defined.

(** Inverting a [Mapping] and then the list of the result, both on the
    default path, gives the items back; unique values are not needed. *)
Lemma inverted_twice (m : pyobj) :
  isinstance_Mapping m = true ->
  callable (getattr_inverted m (Plain VNone)) = false ->
  (once <- consume (inverted m) ;; consume (inverted (pylist once)))
  = Return (map tuple_of_item (items m)).
Proof.
  intros Hm Hc.
  pose proof (proj1 (iteritems_mapping_or_iterable_spec m)) as Hn.
  destruct (Hn Hm) as [Hl _].
  rewrite (consume_inverted_default m (items m) Hc Hl).
  cbv beta iota delta [bind].
  rewrite (consume_inverted_default (pylist (map tuple_of_item (map swap_item (items m))))
             (map swap_item (items m)) eq_refl).
  - now rewrite swap_item_involutive.
  - unfold _iteritems_mapping_or_iterable. simpl. apply list_iter_list.
Qed.

(** C8: for a finite [Mapping] [m] with unique keys and unique values and
    no callable [__inverted__], [list(inverted(list(inverted(m))))] is
    the list of the items of [m], in their order. *)
Theorem inverted_twice_roundtrip (m : pyobj) :
  isinstance_Mapping m = true ->
  NoDup (map fst (items m)) ->
  NoDup (map snd (items m)) ->
  callable (getattr_inverted m (Plain VNone)) = false ->
  (once <- consume (inverted m) ;; consume (inverted (pylist once)))
  = Return (map tuple_of_item (items m)).
Proof.
  intros Hm _ _ Hc. exact (inverted_twice m Hm Hc).
Qed.

Lemma inverted_twice_roundtrip_witness :
  NoDup (map fst (items d_ab))
  /\ NoDup (map snd (items d_ab))
  /\ consume (inverted d_ab)
     = Return [pair_ (VInt 1) (VStr "a"); pair_ (VInt 2) (VStr "b")]
  /\ consume (inverted (pylist [pair_ (VInt 1) (VStr "a"); pair_ (VInt 2) (VStr "b")]))
     = Return [pair_ (VStr "a") (VInt 1); pair_ (VStr "b") (VInt 2)].
Proof.
  assert (Hk : NoDup (map fst (items d_ab))).
  { simpl. repeat constructor; simpl; intuition discriminate. }
  assert (Hv : NoDup (map snd (items d_ab))).
  { simpl. repeat constructor; simpl; intuition discriminate. }
  split; [exact Hk|]. split; [exact Hv|]. split; [reflexivity|].
  exact (inverted_twice_roundtrip d_ab eq_refl Hk Hv eq_refl).
Defined.

(** ** Claims about [_iteritems_args_kw]: the returned items *)




(** A true positional argument whose iterator is false is left out, as
    an absent one is. *)
Lemma args_kw_false_iterator_dropped (arg : pyobj) (kw : kwargs) :
  ob_bool arg = true ->
  ob_iter_bool arg = false ->
  _iteritems_args_kw [arg] kw = Return (iter_items (kw_items kw)).
Proof.
  intros Hb Hi. unfold _iteritems_args_kw. simpl. rewrite Hb. simpl.
  destruct kw as [|nv kw]; simpl; now rewrite Hi.
Qed.




(** C6: a positional argument that is false gives the same outcome as no
    positional argument: it is not normalized and the result holds the
    keyword items only (none when there are no keywords). *)
Theorem args_kw_false_positional (arg : pyobj) (kw : kwargs) :
  ob_bool arg = false ->
  _iteritems_args_kw [arg] kw = _iteritems_args_kw [] kw
  /\ _iteritems_args_kw [arg] kw = Return (iter_items (kw_items kw))
  /\ consume (_iteritems_args_kw [arg] kw) = Return (map tuple_of_item (kw_items kw)).
Proof.
  intros Hb.
  assert (E : _iteritems_args_kw [arg] kw = Return (iter_items (kw_items kw))).
  { unfold _iteritems_args_kw. simpl. rewrite Hb.
    destruct kw; reflexivity. }
  split; [|split].
  - rewrite E. destruct kw; reflexivity.
  - exact E.
  - rewrite E. simpl. unfold iter_items. apply list_iter_list.
Qed.

(** An empty [dict] and an empty [list] are false; so may be an object
    that has items. *)
Lemma args_kw_false_positional_witness :
  ob_bool (dict_ []) = false
  /\ _iteritems_args_kw [dict_ []] [("b", VInt 2)]
     = _iteritems_args_kw [] [("b", VInt 2)]
  /\ consume (_iteritems_args_kw
                [{| ob_shape := Mapping [(VStr "a", VInt 1)];
                    ob_bool := false; ob_iter_bool := true;
                    ob_inverted := None |}]
                [("b", VInt 2)])
     = Return [pair_ (VStr "b") (VInt 2)].
Proof.
  split; [reflexivity|]. split.
  - exact (proj1 (args_kw_false_positional (dict_ []) [("b", VInt 2)] eq_refl)).
  - exact (proj2 (proj2 (args_kw_false_positional
                           {| ob_shape := Mapping [(VStr "a", VInt 1)];
                              ob_bool := false; ob_iter_bool := true;
                              ob_inverted := None |}
                           [("b", VInt 2)] eq_refl))).
Defined.

(** C7: with no positional and no keyword argument the call returns
    (it does not raise) the iterator [_NULL_IT], which yields nothing. *)
Theorem args_kw_nothing :
  _iteritems_args_kw [] [] = Return _NULL_IT
  /\ list_ _NULL_IT = Return []
  /\ consume (_iteritems_args_kw [] []) = Return [].
Proof.
  repeat split.
Qed.




(** ** Further behaviour of the returned iterators *)

(** A generator is true even when it yields nothing, so it is normalized;
    and an exception raised while the positional segment is pulled
    escapes from that pull of the result. *)
Example args_kw_generator_raises :
  _iteritems_args_kw [generator Stop] [] = Return Stop
  /\ consume (_iteritems_args_kw
                [generator (Yield (VInt 0) (Raise (TypeError "boom")))]
                [("b", VInt 2)])
     = Raised (TypeError "boom").
Proof.
  split; reflexivity.
Qed.

(** An element that is not a pair surfaces only when the generator of
    [inverted] reaches it. *)
Example inverted_malformed_element :
  inverted (pylist [pair_ (VInt 1) (VInt 2); VInt 3])
  = Return (Yield (pair_ (VInt 2) (VInt 1)) (Raise (UnpackError (VInt 3)))).
Proof.
  reflexivity.
Qed.

(** ** Chains and the swapping generator *)

Lemma chain_assoc (a b c : pyiter) :
  chain (chain a b) c = chain a (chain b c).
Proof.
  induction a as [|x rest IH|e]; simpl; [reflexivity | now rewrite IH | reflexivity].
Qed.

Lemma iter_items_app (kvs1 kvs2 : list (pyval * pyval)) :
  iter_items (kvs1 ++ kvs2) = chain (iter_items kvs1) (iter_items kvs2).
Proof.
  unfold iter_items. now rewrite map_app, chain_iter_list.
Qed.

Lemma unpack2_raises (elt : pyval) (e : exn) :
  unpack2 elt = Raised e -> e = UnpackError elt.
Proof.
  unfold unpack2.
  destruct (elements elt) as [[|k [|v [|w l]]]|]; intros H;
    solve [discriminate | now injection H as <-].
Qed.

(** Over a prefix of elements that unpack, the generator yields the
    swapped tuples and goes on with the rest. *)
Lemma genexpr_swap_prefix (good : list pyval) (tail : pyiter) :
  forallb unpacks good = true ->
  genexpr_swap (chain (iter_list good) tail)
  = chain (iter_list (map swap_elt good)) (genexpr_swap tail).
Proof.
  induction good as [|x good IH]; simpl; intros H.
  - reflexivity.
  - apply andb_true_iff in H. destruct H as [Hx Hg].
    unfold unpacks in Hx. unfold swap_elt.
    destruct (unpack2 x) as [[k v]|e]; [|discriminate].
    now rewrite (IH Hg).
Qed.

Lemma genexpr_swap_list (elts : list pyval) :
  forallb unpacks elts = true ->
  genexpr_swap (iter_list elts) = iter_list (map swap_elt elts).
Proof.
  intros H. pose proof (genexpr_swap_prefix elts Stop H) as E.
  rewrite !chain_Stop_r in E. exact E.
Qed.

Lemma unpacks_swap_elt (elt : pyval) :
  unpacks elt = true -> unpacks (swap_elt elt) = true.
Proof.
  unfold unpacks, swap_elt. destruct (unpack2 elt) as [[k v]|e]; [reflexivity | discriminate].
Qed.

Lemma swap_elt_twice (elt : pyval) :
  unpacks elt = true -> swap_elt (swap_elt elt) = as_tuple elt.
Proof.
  unfold unpacks, swap_elt, as_tuple.
  destruct (unpack2 elt) as [[k v]|e]; [reflexivity | discriminate].
Qed.

Lemma is_pair_as_tuple (elt : pyval) : is_pair elt = true -> as_tuple elt = elt.
Proof.
  destruct elt as [| | | |[|a [|b [|c l]]]|]; try discriminate. reflexivity.
Qed.

Lemma as_tuple_fixed (elt : pyval) :
  unpacks elt = true -> as_tuple elt = elt -> is_pair elt = true.
Proof.
  unfold unpacks, as_tuple.
  destruct (unpack2 elt) as [[k v]|e]; [|discriminate].
  intros _ <-. reflexivity.
Qed.

(** ** More on [_iteritems_args_kw] *)

(** Listing a chain: the list of the first part, then the list of the
    second; the first exception met escapes. *)
Lemma list_chain_bind (a b : pyiter) :
  list_ (chain a b)
  = (la <- list_ a ;; lb <- list_ b ;; Return (la ++ lb)).
Proof.
  induction a as [|x rest IH|e]; simpl.
  - destruct (list_ b); reflexivity.
  - rewrite IH. destruct (list_ rest) as [la|e]; simpl; [|reflexivity].
    destruct (list_ b); reflexivity.
  - reflexivity.
Qed.

(** At most one positional argument: the result is the positional
    segment chained with the keyword items. *)
Lemma args_kw_shape (args : list pyobj) (kw : kwargs) :
  (List.length args <= 1)%nat ->
  _iteritems_args_kw args kw
  = Return (chain (positional_segment args) (iter_items (kw_items kw))).
Proof.
  intros Hlen. unfold _iteritems_args_kw.
  destruct (Z.ltb_spec 1 (Z.of_nat (List.length args))) as [Hlt|_]; [lia|].
  destruct args as [|arg args]; simpl.
  - destruct kw; reflexivity.
  - destruct (ob_bool arg), (ob_iter_bool arg) eqn:Hi, kw as [|nv kw];
      simpl; rewrite ?Hi; simpl; try reflexivity;
      unfold iter_items; simpl; now rewrite chain_Stop_r.
Qed.

(** X1: with a true positional argument whose iterator is true, listing
    the result gives the list of the normalized argument followed by the
    keyword items, with or without keywords; and if listing the
    normalized argument raises, listing the result raises the same
    exception. *)
Theorem args_kw_list (arg : pyobj) (kw : kwargs) :
  ob_bool arg = true ->
  ob_iter_bool arg = true ->
  consume (_iteritems_args_kw [arg] kw)
  = (elts <- list_ (_iteritems_mapping_or_iterable arg) ;;
     Return (elts ++ map tuple_of_item (kw_items kw))).
Proof.
  intros Hb Hi.
  rewrite (args_kw_shape [arg] kw (le_n 1)). simpl positional_segment.
  rewrite Hb, Hi. simpl.
  rewrite list_chain_bind. unfold iter_items. rewrite list_iter_list.
  destruct (list_ (_iteritems_mapping_or_iterable arg)); reflexivity.
Qed.

Lemma args_kw_list_witness :
  consume (_iteritems_args_kw
             [generator (Yield (pair_ (VStr "a") (VInt 1)) (Raise (TypeError "boom")))]
             [("b", VInt 2)])
  = Raised (TypeError "boom")
  /\ consume (_iteritems_args_kw [d_ab] [])
     = Return [pair_ (VStr "a") (VInt 1); pair_ (VStr "b") (VInt 2)].
Proof.
  split.
  - exact (args_kw_list
             (generator (Yield (pair_ (VStr "a") (VInt 1)) (Raise (TypeError "boom"))))
             [("b", VInt 2)] eq_refl eq_refl).
  - exact (args_kw_list d_ab [] eq_refl eq_refl).
Defined.

(** X3: feeding the iterator returned by a call with keywords back as the
    positional argument of a second call, with further keywords, gives
    the same pulls as one call with all the keywords (the names being
    distinct, as in any one call).  With keywords the first call returns
    a [chain] or the keyword iterator: an iterator object of the standard
    library, which is true, is no [Mapping], and is its own iterator,
    that is [generator it]. *)
Theorem args_kw_nested (args : list pyobj) (kw1 kw2 : kwargs) :
  (List.length args <= 1)%nat ->
  kw1 <> [] ->
  NoDup (map fst (kw1 ++ kw2)) ->
  (it <- _iteritems_args_kw args kw1 ;; _iteritems_args_kw [generator it] kw2)
  = _iteritems_args_kw args (kw1 ++ kw2).
Proof.
  intros Hlen _ _.
  rewrite (args_kw_shape args kw1 Hlen), (args_kw_shape args (kw1 ++ kw2) Hlen).
  cbv beta iota delta [bind].
  rewrite (args_kw_shape [generator _] kw2 (le_n 1)).
  simpl positional_segment.
  unfold _iteritems_mapping_or_iterable. simpl.
  unfold kw_items at 3. rewrite map_app. fold (kw_items kw1) (kw_items kw2).
  change (iter_ (generator ?it)) with it.
  now rewrite iter_items_app, chain_assoc.
Qed.

Lemma args_kw_nested_witness :
  (it <- _iteritems_args_kw [dict_ [(VStr "a", VInt 1)]] [("b", VInt 2)] ;;
   _iteritems_args_kw [generator it] [("c", VInt 3)])
  = Return (iter_list [pair_ (VStr "a") (VInt 1); pair_ (VStr "b") (VInt 2);
                       pair_ (VStr "c") (VInt 3)])
  /\ (it <- _iteritems_args_kw [false_iterator] [("b", VInt 2)] ;;
      _iteritems_args_kw [generator it] [("c", VInt 3)])
     = Return (iter_list [pair_ (VStr "b") (VInt 2); pair_ (VStr "c") (VInt 3)]).
Proof.
  assert (Hn : NoDup (map fst ([("b", VInt 2)] ++ [("c", VInt 3)]))).
  { simpl. repeat constructor; simpl; intuition discriminate. }
  assert (Hk : [("b", VInt 2)] <> @nil (string * pyval)) by discriminate.
  split.
  - exact (args_kw_nested [dict_ [(VStr "a", VInt 1)]] [("b", VInt 2)] [("c", VInt 3)]
             (le_n 1) Hk Hn).
  - exact (args_kw_nested [false_iterator] [("b", VInt 2)] [("c", VInt 3)]
             (le_n 1) Hk Hn).
Defined.

(** X9: a positional argument that is true but whose iterator object is
    false (one with [__len__() == 0], say) is left out like an absent
    argument, although it has pairs to yield: the result holds the
    keyword items only, and nothing at all without keywords. *)
Theorem args_kw_false_iterator (arg : pyobj) (kw : kwargs) :
  ob_bool arg = true ->
  ob_iter_bool arg = false ->
  _iteritems_args_kw [arg] kw = _iteritems_args_kw [] kw
  /\ consume (_iteritems_args_kw [arg] kw) = Return (map tuple_of_item (kw_items kw)).
Proof.
  intros Hb Hi.
  rewrite (args_kw_false_iterator_dropped arg kw Hb Hi). split.
  - destruct kw; reflexivity.
  - simpl. unfold iter_items. apply list_iter_list.
Qed.

Lemma args_kw_false_iterator_witness :
  yielded (_iteritems_mapping_or_iterable false_iterator) = [pair_ (VStr "a") (VInt 1)]
  /\ consume (_iteritems_args_kw [false_iterator] [("b", VInt 2)])
     = Return [pair_ (VStr "b") (VInt 2)]
  /\ consume (_iteritems_args_kw [false_iterator] []) = Return [].
Proof.
  split; [reflexivity|]. split.
  - exact (proj2 (args_kw_false_iterator false_iterator [("b", VInt 2)]
                    eq_refl eq_refl)).
  - exact (proj2 (args_kw_false_iterator false_iterator [] eq_refl eq_refl)).
Defined.

(** ** More on [inverted] *)

Lemma genexpr_swap_yields_pairs (it : pyiter) :
  forallb is_pair (yielded (genexpr_swap it)) = true.
Proof.
  induction it as [|x rest IH|e]; simpl; try reflexivity.
  destruct (unpack2 x) as [[k v]|e]; simpl; [exact IH | reflexivity].
Qed.

(** X5: on the default path every element that comes out of the result
    is a tuple of length two, whatever the argument holds (lists or
    strings of length two go in, tuples come out), and no more elements
    come out than the normalized argument yields. *)
Theorem inverted_yields_pairs (arg : pyobj) :
  callable (getattr_inverted arg (Plain VNone)) = false ->
  exists it,
    inverted arg = Return it
    /\ forallb is_pair (yielded it) = true
    /\ (List.length (yielded it)
        <= List.length (yielded (_iteritems_mapping_or_iterable arg)))%nat.
Proof.
  intros Hc. eexists. split; [exact (inverted_default arg Hc)|]. split.
  - apply genexpr_swap_yields_pairs.
  - induction (_iteritems_mapping_or_iterable arg) as [|x rest IH|e]; simpl; try lia.
    destruct (unpack2 x) as [[k v]|e]; simpl; lia.
Qed.

Lemma inverted_yields_pairs_witness :
  exists it,
    inverted (pylist [VList [VInt 1; VInt 2]; VStr "xy"; VInt 3; pair_ VNone VNone])
    = Return it
    /\ forallb is_pair (yielded it) = true
    /\ (List.length (yielded it)
        <= List.length
             (yielded (_iteritems_mapping_or_iterable
                         (pylist [VList [VInt 1; VInt 2]; VStr "xy"; VInt 3;
                                  pair_ VNone VNone]))))%nat.
Proof.
  exact (inverted_yields_pairs
           (pylist [VList [VInt 1; VInt 2]; VStr "xy"; VInt 3; pair_ VNone VNone])
           eq_refl).
Defined.

(** X6: on the default path the first element that cannot be unpacked
    into two ends the generator: the elements before it come out
    swapped, then the unpacking error for that element escapes, and
    nothing after it is produced. *)
Theorem inverted_stops_at_malformed
    (arg : pyobj) (good : list pyval) (bad : pyval) (rest : pyiter) :
  callable (getattr_inverted arg (Plain VNone)) = false ->
  _iteritems_mapping_or_iterable arg = chain (iter_list good) (Yield bad rest) ->
  forallb unpacks good = true ->
  unpacks bad = false ->
  inverted arg
  = Return (chain (iter_list (map swap_elt good)) (Raise (UnpackError bad)))
  /\ list_inverted arg = Raised (UnpackError bad).
Proof.
  intros Hc Hn Hg Hb.
  assert (E : inverted arg
              = Return (chain (iter_list (map swap_elt good)) (Raise (UnpackError bad)))).
  { rewrite (inverted_default arg Hc), Hn, (genexpr_swap_prefix good _ Hg). simpl.
    unfold unpacks in Hb. destruct (unpack2 bad) as [kv|e] eqn:Hu; [discriminate|].
    now rewrite (unpack2_raises bad e Hu). }
  split; [exact E|].
  unfold list_inverted. rewrite E. simpl.
  clear. induction (map swap_elt good) as [|x l IH]; simpl; [reflexivity | now rewrite IH].
Qed.

Lemma inverted_stops_at_malformed_witness :
  inverted (pylist [pair_ (VStr "a") (VInt 1); VTuple [VInt 1; VInt 2; VInt 3];
                    pair_ (VStr "b") (VInt 2)])
  = Return (Yield (pair_ (VInt 1) (VStr "a"))
              (Raise (UnpackError (VTuple [VInt 1; VInt 2; VInt 3])))).
Proof.
  exact (proj1 (inverted_stops_at_malformed
                  (pylist [pair_ (VStr "a") (VInt 1); VTuple [VInt 1; VInt 2; VInt 3];
                           pair_ (VStr "b") (VInt 2)])
                  [pair_ (VStr "a") (VInt 1)]
                  (VTuple [VInt 1; VInt 2; VInt 3])
                  (iter_list [pair_ (VStr "b") (VInt 2)])
                  eq_refl eq_refl eq_refl eq_refl)).
Defined.

Lemma list_inverted_pylist (elts : list pyval) :
  forallb unpacks elts = true ->
  list_inverted (pylist elts) = Return (map swap_elt elts).
Proof.
  intros H. unfold list_inverted.
  rewrite (inverted_default (pylist elts) eq_refl).
  change (_iteritems_mapping_or_iterable (pylist elts)) with (iter_list elts).
  rewrite (genexpr_swap_list elts H). apply list_iter_list.
Qed.

(** X7: inverting a list of elements that all unpack, and then the list
    of the result, gives the elements back as tuples: the round trip is
    the identity exactly on lists of 2-tuples, and turns any other pair
    (a list or a string of length two) into the tuple of its parts. *)
Theorem inverted_twice_gives_tuples (elts : list pyval) :
  forallb unpacks elts = true ->
  (once <- list_inverted (pylist elts) ;; list_inverted (pylist once))
  = Return (map as_tuple elts)
  /\ (map as_tuple elts = elts <-> forallb is_pair elts = true).
Proof.
  intros H. split.
  - rewrite (list_inverted_pylist elts H). cbv beta iota delta [bind].
    rewrite list_inverted_pylist.
    + f_equal. rewrite map_map.
      induction elts as [|x elts IH]; simpl in *; [reflexivity|].
      apply andb_true_iff in H. destruct H as [Hx Hl].
      now rewrite (swap_elt_twice x Hx), (IH Hl).
    + clear -H.
      induction elts as [|x elts IH]; simpl in *; [reflexivity|].
      apply andb_true_iff in H. destruct H as [Hx Hl].
      now rewrite (unpacks_swap_elt x Hx), (IH Hl).
  - induction elts as [|x elts IH]; simpl in *; [tauto|].
    apply andb_true_iff in H. destruct H as [Hx Hl].
    specialize (IH Hl). rewrite andb_true_iff. split.
    + intros E. injection E as Ex El. split; [exact (as_tuple_fixed x Hx Ex) | tauto].
    + intros [Px Pl]. rewrite (is_pair_as_tuple x Px). f_equal. tauto.
Qed.

Lemma inverted_twice_gives_tuples_witness :
  forallb unpacks [VList [VStr "a"; VInt 1]; VStr "xy"] = true
  /\ (once <- list_inverted (pylist [VList [VStr "a"; VInt 1]; VStr "xy"]) ;;
      list_inverted (pylist once))
     = Return [pair_ (VStr "a") (VInt 1); pair_ (VStr "x") (VStr "y")].
Proof.
  split; [reflexivity|].
  exact (proj1 (inverted_twice_gives_tuples [VList [VStr "a"; VInt 1]; VStr "xy"]
                  eq_refl)).
Defined.

(** ** [inverted] over the result of [_iteritems_args_kw] *)

(** X8: inverting the iterator returned for a positional argument with
    pairs [kvs], true and with a true iterator, and at least one keyword
    gives the swapped positional pairs followed by the [(value, name)]
    pairs of the keywords.  The iterator returned here is a [chain]
    object: true, no [Mapping], without [__inverted__], its own iterator,
    that is [generator it]. *)
Theorem inverted_of_args_kw (arg : pyobj) (kw : kwargs) (kvs : list (pyval * pyval)) :
  ob_bool arg = true ->
  ob_iter_bool arg = true ->
  kw <> [] ->
  list_ (_iteritems_mapping_or_iterable arg) = Return (map tuple_of_item kvs) ->
  (it <- _iteritems_args_kw [arg] kw ;; list_inverted (generator it))
  = Return (map tuple_of_item (map swap_item kvs)
            ++ map (fun nv => pair_ (snd nv) (VStr (fst nv))) kw).
Proof.
  intros Hb Hi _ Hl.
  rewrite (args_kw_shape [arg] kw (le_n 1)). simpl positional_segment.
  rewrite Hb, Hi. simpl andb. cbv beta iota delta [bind].
  apply list_inv in Hl. rewrite Hl. fold (iter_items kvs).
  rewrite <- iter_items_app.
  unfold list_inverted.
  rewrite (consume_inverted_default (generator _) (kvs ++ kw_items kw) eq_refl).
  - rewrite !map_app. f_equal. unfold kw_items. now rewrite !map_map.
  - unfold _iteritems_mapping_or_iterable. simpl. apply list_iter_list.
Qed.

Lemma inverted_of_args_kw_witness :
  (it <- _iteritems_args_kw [dict_ [(VStr "a", VInt 1)]] [("b", VInt 2)] ;;
   list_inverted (generator it))
  = Return [pair_ (VInt 1) (VStr "a"); pair_ (VInt 2) (VStr "b")].
Proof.
  assert (Hk : [("b", VInt 2)] <> @nil (string * pyval)) by discriminate.
  exact (inverted_of_args_kw (dict_ [(VStr "a", VInt 1)]) [("b", VInt 2)]
           [(VStr "a", VInt 1)] eq_refl eq_refl Hk eq_refl).
Defined.
